(** * Cosa integration: session client ([api.py]) and device manager
      ([cosa_manager.py]) as a shallow embedding.

    The Python code is modelled in a state/exception monad.  The state holds
    the fields of the [Api] object, the [CosaManager.__homeId] field and the
    log of HTTP requests issued so far; the network is an oracle giving the
    outcome of the n-th request, and [datetime.now(UTC)] is a clock reading
    (microseconds) that is constant during one operation. *)

From Stdlib Require Import ZArith String Ascii List Bool Lia.
From Stdlib Require Import DecimalString.
Import ListNotations.
Set Warnings "-register-all".
Open Scope string_scope.

Module Cosa.

(** ** Python values *)

(** Decoded JSON, as [json.loads] / [response.json()] produce it.  Numbers
    are integers here; [JNull] is Python's [None]. *)
Inductive json : Type :=
| JNull
| JBool (b : bool)
| JInt (z : Z)
| JStr (s : string)
| JArr (l : list json)
| JObj (fields : list (string * json)).

(** The values the code handles: decoded JSON, and coroutine objects, which is
    what calling an [async def] evaluates to when it is not awaited. *)
Inductive pyval : Type :=
| PJ (j : json)
| PCoro (fn : string).

Definition PyNone : pyval := PJ JNull.
Definition PyTrue : pyval := PJ (JBool true).
Definition PyFalse : pyval := PJ (JBool false).

(** [v is None] *)
Definition is_none (v : pyval) : bool :=
  match v with PJ JNull => true | _ => false end.

(** Exceptions raised by the code.  [ClientError] is [aiohttp.ClientError]
    (transport failures), [JSONDecodeError] stands for a body that
    [response.json()] cannot decode. *)
Inductive exn : Type :=
| ClientError
| JSONDecodeError
| TypeError
| KeyError
| IndexError.

Inductive result (A : Type) : Type :=
| Ok (a : A)
| Raise (e : exn).
Arguments Ok {A} a.
Arguments Raise {A} e.

(** *** Operators on values *)

Fixpoint str_prefix (p s : string) : bool :=
  match p, s with
  | EmptyString, _ => true
  | String a p', String b s' => Ascii.eqb a b && str_prefix p' s'
  | String _ _, EmptyString => false
  end.

(** Substring test: [p in s] for two [str]. *)
Fixpoint str_contains (p s : string) : bool :=
  str_prefix p s ||
  match s with
  | EmptyString => false
  | String _ s' => str_contains p s'
  end.

(** Key lookup in a decoded JSON object (a [dict] has one entry per key). *)
Fixpoint assoc (k : string) (fs : list (string * json)) : option json :=
  match fs with
  | [] => None
  | (k', v) :: fs' => if String.eqb k k' then Some v else assoc k fs'
  end.

(** [key in v] for a [str] key. *)
Definition py_contains (key : string) (v : pyval) : result bool :=
  match v with
  | PJ (JObj fs) => Ok (match assoc key fs with Some _ => true | None => false end)
  | PJ (JArr l) =>
      Ok (existsb (fun e => match e with JStr s => String.eqb s key | _ => false end) l)
  | PJ (JStr s) => Ok (str_contains key s)
  | _ => Raise TypeError  (* int, bool, None, coroutine: not iterable *)
  end.

(** [v[key]] for a [str] key. *)
Definition py_getitem (v : pyval) (key : string) : result pyval :=
  match v with
  | PJ (JObj fs) =>
      match assoc key fs with Some x => Ok (PJ x) | None => Raise KeyError end
  | _ => Raise TypeError  (* list/str indices must be integers; others not subscriptable *)
  end.

(** [v[i]] for a non-negative [int] index. *)
Definition py_getindex (v : pyval) (i : nat) : result pyval :=
  match v with
  | PJ (JArr l) =>
      match nth_error l i with Some x => Ok (PJ x) | None => Raise IndexError end
  | PJ (JStr s) =>
      match String.get i s with
      | Some a => Ok (PJ (JStr (String a EmptyString)))
      | None => Raise IndexError
      end
  | PJ (JObj _) => Raise KeyError  (* decoded objects only have [str] keys *)
  | _ => Raise TypeError
  end.

(** [v == z] for an [int] z ([True == 1] and [False == 0] in Python). *)
Definition py_eq_int (v : pyval) (z : Z) : bool :=
  match v with
  | PJ (JInt n) => Z.eqb n z
  | PJ (JBool b) => Z.eqb (if b then 1 else 0)%Z z
  | _ => false
  end.

(** [v == s] for a [str] s. *)
Definition py_eq_str (v : pyval) (s : string) : bool :=
  match v with PJ (JStr t) => String.eqb t s | _ => false end.

(** Truthiness, as in [if not v]. *)
Definition py_truthy (v : pyval) : bool :=
  match v with
  | PJ JNull => false
  | PJ (JBool b) => b
  | PJ (JInt z) => negb (Z.eqb z 0)
  | PJ (JStr s) => negb (String.eqb s EmptyString)
  | PJ (JArr l) => match l with [] => false | _ => true end
  | PJ (JObj fs) => match fs with [] => false | _ => true end
  | PCoro _ => true
  end.

(** *** [json.dumps] with its defaults: separators [", "] and [": "],
    [ensure_ascii=True] (characters are read as code points 0..255). *)

Definition char_of (n : nat) : string := String (ascii_of_nat n) EmptyString.
Definition dq : string := char_of 34.
Definition bs : string := char_of 92.

Definition hex_digit (n : nat) : string :=
  if Nat.ltb n 10 then char_of (48 + n) else char_of (87 + n).

Definition escape_char (a : ascii) : string :=
  let n := nat_of_ascii a in
  if Nat.eqb n 34 then (bs ++ dq)%string
  else if Nat.eqb n 92 then (bs ++ bs)%string
  else if Nat.eqb n 10 then (bs ++ "n")%string
  else if Nat.eqb n 13 then (bs ++ "r")%string
  else if Nat.eqb n 9 then (bs ++ "t")%string
  else if Nat.eqb n 8 then (bs ++ "b")%string
  else if Nat.eqb n 12 then (bs ++ "f")%string
  else if Nat.leb 32 n && Nat.leb n 126 then String a EmptyString
  else (bs ++ "u00" ++ hex_digit (n / 16) ++ hex_digit (n mod 16))%string.

Fixpoint escape (s : string) : string :=
  match s with
  | EmptyString => EmptyString
  | String a s' => (escape_char a ++ escape s')%string
  end.

Definition quote (s : string) : string := (dq ++ escape s ++ dq)%string.

Fixpoint join (sep : string) (l : list string) : string :=
  match l with
  | [] => EmptyString
  | [x] => x
  | x :: l' => (x ++ sep ++ join sep l')%string
  end.

Definition z_to_string (z : Z) : string := NilZero.string_of_int (Z.to_int z).

Fixpoint json_dumps (j : json) : string :=
  match j with
  | JNull => "null"
  | JBool true => "true"
  | JBool false => "false"
  | JInt z => z_to_string z
  | JStr s => quote s
  | JArr l => ("[" ++ join ", " (map json_dumps l) ++ "]")%string
  | JObj fs =>
      ("{" ++ join ", " (map (fun kv => quote (fst kv) ++ ": " ++ json_dumps (snd kv)) fs)
       ++ "}")%string
  end.


(** ** State, network and the monad *)

Open Scope Z_scope.

Inductive method : Type := GET | POST.

(** One HTTP request: method, url, headers and the [data=] body. *)
Record request : Type := mkRequest {
  r_method : method;
  r_url : string;
  r_headers : list (string * pyval);
  r_data : option string
}.

(** What the transport does with a request: [session.post]/[session.get]
    raises [aiohttp.ClientError], or a response comes back with a status and
    a body; [None] is a body that [response.json()] fails to decode. *)
Inductive outcome : Type :=
| TransportError
| Response (status : Z) (body : option json).

(** Fields of an [Api] instance. *)
Record api_state : Type := mkApi {
  username : string;
  password : string;
  authToken : pyval;
  lastSuccessfulCall : option Z
}.

(** The manager, its [Api] and the requests issued so far. *)
Record world : Type := mkWorld {
  api : api_state;
  homeId : pyval;
  log : list request
}.

(** The environment of one operation: the outcome of the n-th request of
    the log, and the clock. *)
Record ctx : Type := mkCtx {
  net : nat -> request -> outcome;
  now : Z
}.

Definition M (A : Type) : Type := ctx -> world -> result A * world.

Definition ret {A} (a : A) : M A := fun _ w => (Ok a, w).
Definition throw {A} (e : exn) : M A := fun _ w => (Raise e, w).
Definition lift {A} (r : result A) : M A := fun _ w => (r, w).

Definition bind {A B} (m : M A) (k : A -> M B) : M B :=
  fun c w =>
    match m c w with
    | (Ok a, w') => k a c w'
    | (Raise e, w') => (Raise e, w')
    end.

Notation "x <- m ;; k" := (bind m (fun x => k))
  (at level 61, m at next level, right associativity).

(** [except (aiohttp.ClientError, json.JSONDecodeError)] *)
Definition caught (e : exn) : bool :=
  match e with ClientError | JSONDecodeError => true | _ => false end.

Definition try_except {A} (m : M A) (handler : M A) : M A :=
  fun c w =>
    match m c w with
    | (Raise e, w') => if caught e then handler c w' else (Raise e, w')
    | r => r
    end.

Definition get_api : M api_state := fun _ w => (Ok (api w), w).
Definition put_api (a : api_state) : M unit :=
  fun _ w => (Ok tt, mkWorld a (homeId w) (log w)).
Definition get_homeId : M pyval := fun _ w => (Ok (homeId w), w).

(** [datetime.now(UTC)], in microseconds. *)
Definition clock : M Z := fun c w => (Ok (now c), w).

(** Issue a request: it is appended to the log, and the network decides. *)
Definition send (r : request) : M outcome :=
  fun c w =>
    (Ok (net c (length (log w)) r), mkWorld (api w) (homeId w) (app (log w) [r])).

Definition set_authToken (t : pyval) : M unit :=
  a <- get_api;;
  put_api (mkApi (username a) (password a) t (lastSuccessfulCall a)).

Definition set_lastSuccessfulCall (t : Z) : M unit :=
  a <- get_api;;
  put_api (mkApi (username a) (password a) (authToken a) (Some t)).

(** ** [api.py] *)

Definition apiUri : string := "kiwi.cosa.com.tr".

(** [__LOGIN_TIMEOUT_DELTA = timedelta(minutes=60)], in microseconds. *)
Definition LOGIN_TIMEOUT_DELTA : Z := 60 * 60 * 1000000.

Definition url_of (endpoint : string) : string :=
  ("https://" ++ apiUri ++ endpoint)%string.

Definition has_auth : M bool :=
  a <- get_api;; ret (negb (is_none (authToken a))).

Definition getHeaders : M (list (string * pyval)) :=
  h <- has_auth;;
  a <- get_api;;
  ret (if h
       then [("Content-Type", PJ (JStr "application/json")); ("authToken", authToken a)]
       else [("Content-Type", PJ (JStr "application/json"))]).

Definition async_get_response_if_success (status : Z) (body : option json) : M pyval :=
  if negb (Z.eqb status 200) then ret PyNone else
  data <- (match body with Some j => ret (PJ j) | None => throw JSONDecodeError end);;
  has_ok <- lift (py_contains "ok" data);;
  if has_ok then
    ok <- lift (py_getitem data "ok");;
    if py_eq_int ok 1 then
      t <- clock;;
      _ <- set_lastSuccessfulCall t;;
      ret data
    else ret PyNone
  else ret PyNone.

(** The body of the [async with session.post/get(...) as res] block. *)
Definition handle (o : outcome) : M pyval :=
  match o with
  | TransportError => throw ClientError
  | Response s b => async_get_response_if_success s b
  end.

(** One run of the body of [__async_post_without_auth]: [payload] is
    rebound to [json.dumps(payload)], and the [except] branch receives that
    rebound value. *)
Definition post_attempt (endpoint : string) (payload : json)
    (on_error : json -> M pyval) : M pyval :=
  let payload' := json_dumps payload in
  headers <- getHeaders;;
  let url := url_of endpoint in
  try_except
    (o <- send (mkRequest POST url headers (Some payload'));; handle o)
    (on_error (JStr payload')).

(** [__async_post_without_auth(endpoint, payload, allowRetry)]; its
    recursive call is made with [allowRetry=False], unfolded here. *)
Definition async_post_without_auth (endpoint : string) (payload : json)
    (allowRetry : bool) : M pyval :=
  let no_retry (p : json) := post_attempt endpoint p (fun _ => ret PyNone) in
  post_attempt endpoint payload
    (fun p => if allowRetry then no_retry p else ret PyNone).

Definition get_attempt (endpoint : string) (on_error : M pyval) : M pyval :=
  headers <- getHeaders;;
  let url := url_of endpoint in
  try_except (o <- send (mkRequest GET url headers None);; handle o) on_error.

(** [__async_get_without_auth(endpoint, allowRetry)], same unfolding. *)
Definition async_get_without_auth (endpoint : string) (allowRetry : bool) : M pyval :=
  get_attempt endpoint
    (if allowRetry then get_attempt endpoint (ret PyNone) else ret PyNone).

Definition async_login : M bool :=
  a <- get_api;;
  let payload := JObj [("email", JStr (username a)); ("password", JStr (password a))] in
  data <- async_post_without_auth "/api/users/login" payload true;;
  has_token <- (if is_none data then ret false else lift (py_contains "authToken" data));;
  if has_token then
    tok <- lift (py_getitem data "authToken");;
    _ <- set_authToken tok;;
    ret true
  else
    _ <- set_authToken PyNone;;
    ret false.

Definition is_login_timed_out : M bool :=
  a <- get_api;;
  t <- clock;;
  ret (match lastSuccessfulCall a with
       | None => true
       | Some last => Z.gtb (t - last) LOGIN_TIMEOUT_DELTA
       end).

Definition async_connection_status : M bool :=
  timed_out <- is_login_timed_out;;
  if timed_out then
    ok <- async_login;;
    if negb ok then ret false else ret true
  else ret true.

(** [if not self.__has_auth() and not await self.__async_login(): return None] *)
Definition auth_gate : M bool :=
  h <- has_auth;;
  if h then ret true else async_login.

Definition async_post (endpoint : string) (payload : json) (allowRetry : bool) : M pyval :=
  proceed <- auth_gate;;
  if proceed then async_post_without_auth endpoint payload allowRetry else ret PyNone.

(** [__async_get] returns [self.__async_get_without_auth(...)] without
    awaiting it: the result is a coroutine object and no request is sent. *)
Definition async_get (endpoint : string) (allowRetry : bool) : M pyval :=
  proceed <- auth_gate;;
  if proceed then ret (PCoro "__async_get_without_auth") else ret PyNone.

Definition async_get_endpoints : M pyval :=
  data <- async_get "/api/endpoints/getEndpoints" true;;
  found <- (if is_none data then ret false else lift (py_contains "endpoints" data));;
  if found then lift (py_getitem data "endpoints") else ret PyNone.

Definition async_get_endpoint (endpointId : string) : M pyval :=
  let payload := JObj [("endpoint", JStr endpointId)] in
  data <- async_post "/api/endpoints/getEndpoint" payload true;;
  found <- (if is_none data then ret false else lift (py_contains "endpoint" data));;
  if found then lift (py_getitem data "endpoint") else ret PyNone.

Definition async_set_target_temperatures (endpointId : string)
    (homeTemp awayTemp sleepTemp customTemp : Z) : M bool :=
  let payload :=
    JObj [("endpoint", JStr endpointId);
          ("targetTemperatures",
            JObj [("home", JInt homeTemp); ("away", JInt awayTemp);
                  ("sleep", JInt sleepTemp); ("custom", JInt customTemp)])] in
  data <- async_post "/api/endpoints/setTargetTemperatures" payload true;;
  ret (negb (is_none data)).

Definition async_disable (endpointId : string) : M bool :=
  let payload := JObj [("endpoint", JStr endpointId); ("mode", JStr "manual");
                       ("option", JStr "frozen")] in
  data <- async_post "/api/endpoints/setMode" payload true;;
  ret (negb (is_none data)).

Definition async_enable_schedule (endpointId : string) : M bool :=
  let payload := JObj [("endpoint", JStr endpointId); ("mode", JStr "schedule")] in
  data <- async_post "/api/endpoints/setMode" payload true;;
  ret (negb (is_none data)).

Definition async_enable_custom_mode (endpointId : string) : M bool :=
  let payload := JObj [("endpoint", JStr endpointId); ("mode", JStr "manual");
                       ("option", JStr "custom")] in
  data <- async_post "/api/endpoints/setMode" payload true;;
  ret (negb (is_none data)).


(** ** [cosa_manager.py] *)

(** [self.__api.<fn>(...)] where [fn] is an [async def] of [Api] and the
    call is not awaited: it evaluates to a coroutine object, no statement of
    [fn] runs. *)
Definition call_unawaited (fn : string) : M pyval := ret (PCoro fn).

(** [CosaManager(username, password)]: a fresh [Api], [__homeId = None]. *)
Definition init_manager (u p : string) : world :=
  mkWorld (mkApi u p PyNone None) PyNone [].

Definition getConnectionStatus : M bool := async_connection_status.

Definition getHomeId : M pyval :=
  h <- get_homeId;;
  if negb (is_none h) then ret h else
  endpoints <- call_unawaited "async_get_endpoints";;
  if is_none endpoints then ret PyNone else
  if py_eq_int endpoints 0 then ret PyNone else
  e0 <- lift (py_getindex endpoints 0);;
  lift (py_getitem e0 "id").

Definition getCurrentStatus : M pyval :=
  hid <- getHomeId;;
  if is_none hid then ret PyNone else
  call_unawaited "async_get_endpoint".

Definition setTemperature (targetTemp : Z) : M bool :=
  hid <- getHomeId;;
  if is_none hid then ret false else
  currentStatus <- call_unawaited "async_get_endpoint";;
  if is_none currentStatus then ret false else
  homeTemp <- lift (py_getitem currentStatus "homeTemperature");;
  awayTemp <- lift (py_getitem currentStatus "awayTemperature");;
  sleepTemp <- lift (py_getitem currentStatus "sleepTemperature");;
  customTemp <- lift (py_getitem currentStatus "customTemperature");;
  currentMode <- lift (py_getitem currentStatus "mode");;
  currentOption <- lift (py_getitem currentStatus "option");;
  if py_eq_str currentMode "manual" && py_eq_str currentOption "custom"
     && py_eq_int customTemp targetTemp then ret true else
  targetSetSuccess <- call_unawaited "async_set_target_temperatures";;
  if negb (py_truthy targetSetSuccess) then ret false else
  if py_eq_str currentMode "manual" && py_eq_str currentOption "custom" then ret true else
  modeSetSuccess <- call_unawaited "async_enable_custom_mode";;
  if negb (py_truthy modeSetSuccess) then
    _ <- call_unawaited "async_set_target_temperatures";;
    ret false
  else ret true.

(** [turnOff] returns [self.__api.async_disable(homeId)] itself. *)
Definition turnOff : M pyval :=
  hid <- getHomeId;;
  if is_none hid then ret PyFalse else
  currentStatus <- call_unawaited "async_get_endpoint";;
  if is_none currentStatus then ret PyFalse else
  currentMode <- lift (py_getitem currentStatus "mode");;
  currentOption <- lift (py_getitem currentStatus "option");;
  if py_eq_str currentMode "manual" && py_eq_str currentOption "frozen" then ret PyTrue else
  call_unawaited "async_disable".

Definition enableSchedule : M pyval :=
  hid <- getHomeId;;
  if is_none hid then ret PyFalse else
  currentStatus <- call_unawaited "async_get_endpoint";;
  if is_none currentStatus then ret PyFalse else
  currentMode <- lift (py_getitem currentStatus "mode");;
  if py_eq_str currentMode "schedule" then ret PyTrue else
  call_unawaited "async_enable_schedule".

(** ** Sample runs *)

Definition tok_world : world :=
  mkWorld (mkApi "u" "p" (PJ (JStr "T")) (Some 0)) PyNone [].

Definition always (o : outcome) : nat -> request -> outcome := fun _ _ => o.


(** The spec's success predicate for a response: HTTP status exactly 200 and
    a decoded body with a field [ok] equal to 1 (equality as Python's [==]). *)
Definition success_predicate (status : Z) (body : option json) : bool :=
  Z.eqb status 200 &&
  match body with
  | Some (JObj fs) =>
      match assoc "ok" fs with Some v => py_eq_int (PJ v) 1 | None => false end
  | _ => false
  end.

(** ** Frame lemmas: the Api never touches [__homeId] *)

Definition keeps_homeId {A} (m : M A) : Prop :=
  forall c w, homeId (snd (m c w)) = homeId w.

Lemma keeps_ret {A} (a : A) : keeps_homeId (ret a).
Proof. intros c w; reflexivity. Qed.

Lemma keeps_throw {A} (e : exn) : keeps_homeId (@throw A e).
Proof. intros c w; reflexivity. Qed.

Lemma keeps_lift {A} (r : result A) : keeps_homeId (lift r).
Proof. intros c w; reflexivity. Qed.

Lemma keeps_get_api : keeps_homeId get_api.
Proof. intros c w; reflexivity. Qed.

Lemma keeps_put_api a : keeps_homeId (put_api a).
Proof. intros c w; reflexivity. Qed.

Lemma keeps_clock : keeps_homeId clock.
Proof. intros c w; reflexivity. Qed.

Lemma keeps_send r : keeps_homeId (send r).
Proof. intros c w; reflexivity. Qed.

Lemma keeps_bind {A B} (m : M A) (k : A -> M B) :
  keeps_homeId m -> (forall a, keeps_homeId (k a)) -> keeps_homeId (bind m k).
Proof.
  intros Hm Hk c w; unfold bind.
  specialize (Hm c w).
  destruct (m c w) as [[a|e] w'] eqn:E; cbn in *.
  - rewrite Hk; exact Hm.
  - exact Hm.
Qed.

Lemma keeps_try {A} (m h : M A) :
  keeps_homeId m -> keeps_homeId h -> keeps_homeId (try_except m h).
Proof.
  intros Hm Hh c w; unfold try_except.
  specialize (Hm c w).
  destruct (m c w) as [[a|e] w'] eqn:E; cbn in *; [exact Hm|].
  destruct (caught e); [rewrite Hh|]; exact Hm.
Qed.

Create HintDb frame.
#[export] Hint Resolve keeps_ret keeps_throw keeps_lift keeps_get_api keeps_put_api
  keeps_clock keeps_send keeps_try : frame.

Ltac frame_step :=
  match goal with
  | |- keeps_homeId (bind _ _) => apply keeps_bind; [| intro]
  | |- keeps_homeId (try_except _ _) => apply keeps_try
  | |- keeps_homeId (if ?b then _ else _) => destruct b
  | |- keeps_homeId (match ?x with _ => _ end) => destruct x
  | |- keeps_homeId _ => solve [eauto with frame]
  end.

Ltac frame := repeat frame_step.

Lemma keeps_set_authToken t : keeps_homeId (set_authToken t).
Proof. unfold set_authToken; frame. Qed.

Lemma keeps_set_lastSuccessfulCall t : keeps_homeId (set_lastSuccessfulCall t).
Proof. unfold set_lastSuccessfulCall; frame. Qed.

Lemma keeps_getHeaders : keeps_homeId getHeaders.
Proof. unfold getHeaders, has_auth; frame. Qed.

Lemma keeps_response s b : keeps_homeId (async_get_response_if_success s b).
Proof.
  unfold async_get_response_if_success.
  destruct (negb (s =? 200)); frame; apply keeps_set_lastSuccessfulCall.
Qed.

Lemma keeps_handle o : keeps_homeId (handle o).
Proof. destruct o; [apply keeps_throw | apply keeps_response]. Qed.

#[export] Hint Resolve keeps_set_authToken keeps_set_lastSuccessfulCall keeps_getHeaders
  keeps_handle : frame.

Lemma keeps_post_attempt ep p k :
  (forall q, keeps_homeId (k q)) -> keeps_homeId (post_attempt ep p k).
Proof. intro Hk; unfold post_attempt; frame; auto. Qed.

Lemma keeps_post_without_auth ep p b : keeps_homeId (async_post_without_auth ep p b).
Proof.
  unfold async_post_without_auth; apply keeps_post_attempt; intro q.
  destruct b; [apply keeps_post_attempt; intros; apply keeps_ret | apply keeps_ret].
Qed.

Lemma keeps_login : keeps_homeId async_login.
Proof.
  unfold async_login; frame; apply keeps_post_without_auth.
Qed.

Lemma keeps_connection_status : keeps_homeId async_connection_status.
Proof.
  unfold async_connection_status, is_login_timed_out; frame; apply keeps_login.
Qed.

(** ** Evaluation lemmas for the manager *)

Lemma getHomeId_eq c w :
  getHomeId c w =
  if is_none (homeId w) then (Raise TypeError, w) else (Ok (homeId w), w).
Proof.
  unfold getHomeId, bind at 1, get_homeId.
  destruct (homeId w) as [[] |]; reflexivity.
Qed.

(** Every statement after [getHomeId] subscripts the coroutine object
    returned by [async_get_endpoint]. *)
Lemma setTemperature_eval x c w : setTemperature x c w = (Raise TypeError, w).
Proof.
  unfold setTemperature, bind at 1; rewrite getHomeId_eq.
  destruct (is_none (homeId w)) eqn:E; [reflexivity|].
  cbn; rewrite E; reflexivity.
Qed.

Lemma turnOff_eval c w : turnOff c w = (Raise TypeError, w).
Proof.
  unfold turnOff, bind at 1; rewrite getHomeId_eq.
  destruct (is_none (homeId w)) eqn:E; [reflexivity|].
  cbn; rewrite E; reflexivity.
Qed.

Lemma enableSchedule_eval c w : enableSchedule c w = (Raise TypeError, w).
Proof.
  unfold enableSchedule, bind at 1; rewrite getHomeId_eq.
  destruct (is_none (homeId w)) eqn:E; [reflexivity|].
  cbn; rewrite E; reflexivity.
Qed.

Lemma getCurrentStatus_eval c w :
  getCurrentStatus c w =
  if is_none (homeId w) then (Raise TypeError, w)
  else (Ok (PCoro "async_get_endpoint"), w).
Proof.
  unfold getCurrentStatus, bind at 1; rewrite getHomeId_eq.
  destruct (is_none (homeId w)) eqn:E; [reflexivity|].
  cbn; rewrite E; reflexivity.
Qed.


(** A fresh session: [connectionStatus] answers [True] and changes nothing. *)
Lemma connection_status_fresh c w T :
  lastSuccessfulCall (api w) = Some T ->
  now c - T <= LOGIN_TIMEOUT_DELTA ->
  async_connection_status c w = (Ok true, w).
Proof.
  intros HT Hle.
  unfold async_connection_status, is_login_timed_out, bind, get_api, clock, ret.
  rewrite HT.
  replace (now c - T >? LOGIN_TIMEOUT_DELTA) with false; [reflexivity|].
  symmetry; rewrite Z.gtb_ltb; apply Z.ltb_ge; exact Hle.
Qed.

(** The gate of [__async_post] / [__async_get] only looks at the token. *)
Lemma auth_gate_eq c w :
  auth_gate c w =
  if is_none (authToken (api w)) then async_login c w else (Ok true, w).
Proof.
  unfold auth_gate, has_auth, bind, get_api, ret; cbn.
  destruct (is_none (authToken (api w))); reflexivity.
Qed.

Lemma async_post_eq ep p b c w :
  async_post ep p b c w =
  match auth_gate c w with
  | (Ok true, w') => async_post_without_auth ep p b c w'
  | (Ok false, w') => (Ok PyNone, w')
  | (Raise e, w') => (Raise e, w')
  end.
Proof.
  unfold async_post, bind at 1.
  destruct (auth_gate c w) as [[[|]|e] w']; reflexivity.
Qed.

Lemma async_get_eq ep b c w :
  async_get ep b c w =
  match auth_gate c w with
  | (Ok true, w') => (Ok (PCoro "__async_get_without_auth"), w')
  | (Ok false, w') => (Ok PyNone, w')
  | (Raise e, w') => (Raise e, w')
  end.
Proof.
  unfold async_get, bind at 1.
  destruct (auth_gate c w) as [[[|]|e] w']; reflexivity.
Qed.

(** ** What one operation may change *)

(** From [w] to [w'] under [c]: the credentials and [__homeId] are the same,
    requests are only appended to the log, and [__lastSuccessfulCall] is
    either unchanged or the current time. *)
Definition api_step (c : ctx) (w w' : world) : Prop :=
  username (api w') = username (api w) /\
  password (api w') = password (api w) /\
  homeId w' = homeId w /\
  (exists l, log w' = app (log w) l) /\
  (lastSuccessfulCall (api w') = lastSuccessfulCall (api w) \/
   lastSuccessfulCall (api w') = Some (now c)).

Lemma api_step_refl c w : api_step c w w.
Proof.
  repeat split; auto. exists []; symmetry; apply app_nil_r.
Qed.

Lemma api_step_trans c w1 w2 w3 :
  api_step c w1 w2 -> api_step c w2 w3 -> api_step c w1 w3.
Proof.
  intros (U1 & P1 & H1 & (l1 & L1) & T1) (U2 & P2 & H2 & (l2 & L2) & T2).
  split; [congruence|]. split; [congruence|]. split; [congruence|].
  split; [exists (app l1 l2); rewrite L2, L1; symmetry; apply app_assoc|].
  destruct T1, T2; [left | right | right | right]; congruence.
Qed.

Definition steps {A} (m : M A) : Prop := forall c w, api_step c w (snd (m c w)).

Lemma steps_ret {A} (a : A) : steps (ret a).
Proof. intros c w; apply api_step_refl. Qed.

Lemma steps_throw {A} (e : exn) : steps (@throw A e).
Proof. intros c w; apply api_step_refl. Qed.

Lemma steps_lift {A} (r : result A) : steps (lift r).
Proof. intros c w; apply api_step_refl. Qed.

Lemma steps_get_api : steps get_api.
Proof. intros c w; apply api_step_refl. Qed.

Lemma steps_get_homeId : steps get_homeId.
Proof. intros c w; apply api_step_refl. Qed.

Lemma steps_clock : steps clock.
Proof. intros c w; apply api_step_refl. Qed.

Lemma steps_send r : steps (send r).
Proof.
  intros c w; repeat split; auto. exists [r]; reflexivity.
Qed.

Lemma steps_set_authToken t : steps (set_authToken t).
Proof. intros c w; repeat split; auto. exists []; symmetry; apply app_nil_r. Qed.

Lemma steps_stamp_ret (d : pyval) :
  steps (t <- clock;; _ <- set_lastSuccessfulCall t;; ret d).
Proof.
  intros c w; cbn.
  split; [reflexivity|]. split; [reflexivity|]. split; [reflexivity|].
  split; [exists []; symmetry; apply app_nil_r | right; reflexivity].
Qed.

Lemma steps_bind {A B} (m : M A) (k : A -> M B) :
  steps m -> (forall a, steps (k a)) -> steps (bind m k).
Proof.
  intros Hm Hk c w; unfold bind.
  specialize (Hm c w).
  destruct (m c w) as [[a|e] w'] eqn:E; cbn in *; [|exact Hm].
  eapply api_step_trans; [exact Hm | apply Hk].
Qed.

Lemma steps_try {A} (m h : M A) : steps m -> steps h -> steps (try_except m h).
Proof.
  intros Hm Hh c w; unfold try_except.
  specialize (Hm c w).
  destruct (m c w) as [[a|e] w'] eqn:E; cbn in *; [exact Hm|].
  destruct (caught e); [| exact Hm].
  eapply api_step_trans; [exact Hm | apply Hh].
Qed.

Create HintDb steps.
#[export] Hint Resolve steps_ret steps_throw steps_lift steps_get_api steps_get_homeId
  steps_clock steps_send steps_set_authToken steps_try : steps.

Ltac steps_step :=
  match goal with
  | |- steps (bind clock _) => apply steps_stamp_ret
  | |- steps (bind _ _) => apply steps_bind; [| intro]
  | |- steps (try_except _ _) => apply steps_try
  | |- steps (if ?b then _ else _) => destruct b
  | |- steps (match ?x with _ => _ end) => destruct x
  | |- steps _ => solve [eauto with steps]
  end.

Ltac steps_tac := repeat steps_step.

Lemma steps_getHeaders : steps getHeaders.
Proof. unfold getHeaders, has_auth; steps_tac. Qed.

Lemma steps_response s b : steps (async_get_response_if_success s b).
Proof. unfold async_get_response_if_success; steps_tac. Qed.

Lemma steps_handle o : steps (handle o).
Proof. destruct o; [apply steps_throw | apply steps_response]. Qed.

#[export] Hint Resolve steps_getHeaders steps_handle : steps.

Lemma steps_post_without_auth ep p b : steps (async_post_without_auth ep p b).
Proof. unfold async_post_without_auth, post_attempt; steps_tac. Qed.

Lemma steps_get_without_auth ep b : steps (async_get_without_auth ep b).
Proof. unfold async_get_without_auth, get_attempt; steps_tac. Qed.

#[export] Hint Resolve steps_post_without_auth steps_get_without_auth : steps.

Lemma steps_login : steps async_login.
Proof. unfold async_login; steps_tac. Qed.

#[export] Hint Resolve steps_login : steps.

Lemma steps_post ep p b : steps (async_post ep p b).
Proof. unfold async_post, auth_gate, has_auth; steps_tac. Qed.

Lemma steps_get ep b : steps (async_get ep b).
Proof. unfold async_get, auth_gate, has_auth; steps_tac. Qed.

#[export] Hint Resolve steps_post steps_get : steps.

(** The operations of [Api] and [CosaManager], private ones included. *)
Inductive api_call : Type :=
| CallConnectionStatus
| CallLogin
| CallGetEndpoints
| CallGetEndpoint (endpointId : string)
| CallSetTargetTemperatures (endpointId : string) (homeTemp awayTemp sleepTemp customTemp : Z)
| CallDisable (endpointId : string)
| CallEnableSchedule (endpointId : string)
| CallEnableCustomMode (endpointId : string)
| CallPost (endpoint : string) (payload : json) (allowRetry : bool)
| CallPostWithoutAuth (endpoint : string) (payload : json) (allowRetry : bool)
| CallGet (endpoint : string) (allowRetry : bool)
| CallGetWithoutAuth (endpoint : string) (allowRetry : bool)
| CallGetResponseIfSuccess (status : Z) (body : option json)
| CallMgrConnectionStatus
| CallMgrGetHomeId
| CallMgrGetCurrentStatus
| CallMgrSetTemperature (targetTemp : Z)
| CallMgrTurnOff
| CallMgrEnableSchedule.

(** The state after running an operation (raising or not). *)
Definition run_call (op : api_call) (c : ctx) (w : world) : world :=
  match op with
  | CallConnectionStatus => snd (async_connection_status c w)
  | CallLogin => snd (async_login c w)
  | CallGetEndpoints => snd (async_get_endpoints c w)
  | CallGetEndpoint e => snd (async_get_endpoint e c w)
  | CallSetTargetTemperatures e h a s t => snd (async_set_target_temperatures e h a s t c w)
  | CallDisable e => snd (async_disable e c w)
  | CallEnableSchedule e => snd (async_enable_schedule e c w)
  | CallEnableCustomMode e => snd (async_enable_custom_mode e c w)
  | CallPost ep p b => snd (async_post ep p b c w)
  | CallPostWithoutAuth ep p b => snd (async_post_without_auth ep p b c w)
  | CallGet ep b => snd (async_get ep b c w)
  | CallGetWithoutAuth ep b => snd (async_get_without_auth ep b c w)
  | CallGetResponseIfSuccess st b => snd (async_get_response_if_success st b c w)
  | CallMgrConnectionStatus => snd (getConnectionStatus c w)
  | CallMgrGetHomeId => snd (getHomeId c w)
  | CallMgrGetCurrentStatus => snd (getCurrentStatus c w)
  | CallMgrSetTemperature t => snd (setTemperature t c w)
  | CallMgrTurnOff => snd (turnOff c w)
  | CallMgrEnableSchedule => snd (enableSchedule c w)
  end.

Lemma run_call_step op c w : api_step c w (run_call op c w).
Proof.
  destruct op; cbn [run_call];
    try (match goal with |- api_step c w (snd (?m c w)) => revert c w; change (steps m) end);
    try (unfold getConnectionStatus, async_connection_status, is_login_timed_out,
           async_get_endpoints,
           async_get_endpoint, async_set_target_temperatures, async_disable,
           async_enable_schedule, async_enable_custom_mode;
         steps_tac; fail).
  all: try (apply steps_response).
  - intros c0 w0; rewrite getHomeId_eq; destruct (is_none (homeId w0)); apply api_step_refl.
  - intros c0 w0; rewrite getCurrentStatus_eval; destruct (is_none (homeId w0));
      apply api_step_refl.
  - intros c0 w0; rewrite setTemperature_eval; apply api_step_refl.
  - intros c0 w0; rewrite turnOff_eval; apply api_step_refl.
  - intros c0 w0; rewrite enableSchedule_eval; apply api_step_refl.
Qed.

(** ** Data is only returned together with a fresh timestamp *)

Definition stamped (m : M pyval) : Prop :=
  forall c w,
    match m c w with
    | (Ok d, w') => is_none d = false -> lastSuccessfulCall (api w') = Some (now c)
    | (Raise _, _) => True
    end.

Lemma stamped_none : stamped (ret PyNone).
Proof. intros c w; cbn; discriminate. Qed.

Lemma stamped_throw e : stamped (throw e).
Proof. intros c w; exact I. Qed.

Lemma stamped_stamp_ret d : stamped (t <- clock;; _ <- set_lastSuccessfulCall t;; ret d).
Proof. intros c w _; reflexivity. Qed.

Lemma stamped_bind {A} (m : M A) (k : A -> M pyval) :
  (forall a, stamped (k a)) -> stamped (bind m k).
Proof.
  intros Hk c w; unfold bind.
  destruct (m c w) as [[a|e] w']; [apply Hk | exact I].
Qed.

Lemma stamped_try m h : stamped m -> stamped h -> stamped (try_except m h).
Proof.
  intros Hm Hh c w; unfold try_except.
  specialize (Hm c w).
  destruct (m c w) as [[a|e] w']; [exact Hm|].
  destruct (caught e); [apply Hh | exact I].
Qed.

Ltac stamped_step :=
  match goal with
  | |- stamped (bind clock _) => apply stamped_stamp_ret
  | |- stamped (bind _ _) => apply stamped_bind; intro
  | |- stamped (try_except _ _) => apply stamped_try
  | |- stamped (if ?b then _ else _) => destruct b
  | |- stamped (match ?x with _ => _ end) => destruct x
  | |- stamped (ret PyNone) => apply stamped_none
  | |- stamped (throw _) => apply stamped_throw
  end.

Lemma stamped_response s b : stamped (async_get_response_if_success s b).
Proof. unfold async_get_response_if_success; repeat stamped_step. Qed.

Lemma stamped_post_without_auth ep p b : stamped (async_post_without_auth ep p b).
Proof.
  unfold async_post_without_auth, post_attempt, handle; repeat stamped_step;
    apply stamped_response.
Qed.

Lemma stamped_get_without_auth ep b : stamped (async_get_without_auth ep b).
Proof.
  unfold async_get_without_auth, get_attempt, handle; repeat stamped_step;
    apply stamped_response.
Qed.

(** ** A held token is backed by a recorded successful call *)

Definition token_backed (w : world) : Prop :=
  is_none (authToken (api w)) = false -> lastSuccessfulCall (api w) <> None.

Definition backs {A} (m : M A) : Prop :=
  forall c w, token_backed w -> token_backed (snd (m c w)).

(** Operations that leave the token alone keep it backed: the timestamp of
    a step never goes back to [None]. *)
Definition keeps_token {A} (m : M A) : Prop :=
  forall c w, authToken (api (snd (m c w))) = authToken (api w).

Lemma backs_of_keeps {A} (m : M A) : keeps_token m -> steps m -> backs m.
Proof.
  intros Hk Hs c w Hb Hn.
  specialize (Hs c w) as (_ & _ & _ & _ & T).
  rewrite Hk in Hn. specialize (Hb Hn).
  destruct T as [T|T]; rewrite T; [exact Hb | discriminate].
Qed.

Lemma backs_bind {A B} (m : M A) (k : A -> M B) :
  backs m -> (forall a, backs (k a)) -> backs (bind m k).
Proof.
  intros Hm Hk c w Hb; unfold bind.
  specialize (Hm c w Hb).
  destruct (m c w) as [[a|e] w']; cbn in *; [apply Hk|]; exact Hm.
Qed.

Lemma backs_try {A} (m h : M A) : backs m -> backs h -> backs (try_except m h).
Proof.
  intros Hm Hh c w Hb; unfold try_except.
  specialize (Hm c w Hb).
  destruct (m c w) as [[a|e] w']; cbn in *; [exact Hm|].
  destruct (caught e); [apply Hh|]; exact Hm.
Qed.

Lemma keeps_token_bind {A B} (m : M A) (k : A -> M B) :
  keeps_token m -> (forall a, keeps_token (k a)) -> keeps_token (bind m k).
Proof.
  intros Hm Hk c w; unfold bind.
  specialize (Hm c w).
  destruct (m c w) as [[a|e] w']; cbn in *; [rewrite Hk|]; exact Hm.
Qed.

Lemma keeps_token_try {A} (m h : M A) :
  keeps_token m -> keeps_token h -> keeps_token (try_except m h).
Proof.
  intros Hm Hh c w; unfold try_except.
  specialize (Hm c w).
  destruct (m c w) as [[a|e] w']; cbn in *; [exact Hm|].
  destruct (caught e); [rewrite Hh|]; exact Hm.
Qed.

Lemma keeps_token_set_last t : keeps_token (set_lastSuccessfulCall t).
Proof. intros c w; reflexivity. Qed.

Ltac keeps_token_step :=
  match goal with
  | |- keeps_token (set_lastSuccessfulCall _) => apply keeps_token_set_last
  | |- keeps_token (bind _ _) => apply keeps_token_bind; [| intro]
  | |- keeps_token (try_except _ _) => apply keeps_token_try
  | |- keeps_token (if ?b then _ else _) => destruct b
  | |- keeps_token (match ?x with _ => _ end) => destruct x
  | |- keeps_token _ => intros ? ?; reflexivity
  end.

Lemma keeps_token_response s b : keeps_token (async_get_response_if_success s b).
Proof.
  unfold async_get_response_if_success; repeat keeps_token_step.
Qed.

Lemma keeps_token_post_without_auth ep p b : keeps_token (async_post_without_auth ep p b).
Proof.
  unfold async_post_without_auth, post_attempt, getHeaders, has_auth, handle;
    repeat keeps_token_step; apply keeps_token_response.
Qed.

Lemma keeps_token_get_without_auth ep b : keeps_token (async_get_without_auth ep b).
Proof.
  unfold async_get_without_auth, get_attempt, getHeaders, has_auth, handle;
    repeat keeps_token_step; apply keeps_token_response.
Qed.

Lemma backs_login : backs async_login.
Proof.
  intros c w Hb.
  pose proof (backs_of_keeps _ (keeps_token_post_without_auth "/api/users/login"
                (JObj [("email", JStr (username (api w)));
                       ("password", JStr (password (api w)))]) true)
                (steps_post_without_auth _ _ _) c w Hb) as Hb1.
  pose proof (stamped_post_without_auth "/api/users/login"
                (JObj [("email", JStr (username (api w)));
                       ("password", JStr (password (api w)))]) true c w) as Hst.
  unfold async_login, bind at 1, get_api at 1; cbv beta iota.
  unfold bind at 1.
  destruct (async_post_without_auth _ _ _ c w) as [[d|e] w1]; cbn -[py_contains py_getitem];
    [| exact Hb1].
  destruct (is_none d) eqn:Ed; cbn -[py_contains py_getitem].
  - intro H; discriminate H.
  - destruct (py_contains "authToken" d) as [[|]|e]; cbn -[py_getitem];
      [| intro H; discriminate H | exact Hb1].
    destruct (py_getitem d "authToken") as [tok|e]; cbn; [| exact Hb1].
    intros _; rewrite (Hst eq_refl); discriminate.
Qed.

Ltac backs_step :=
  match goal with
  | |- backs (bind _ _) => apply backs_bind; [| intro]
  | |- backs (try_except _ _) => apply backs_try
  | |- backs (if ?b then _ else _) => destruct b
  | |- backs (match ?x with _ => _ end) => destruct x
  | |- backs async_login => apply backs_login
  | |- backs (async_post_without_auth _ _ _) =>
      apply backs_of_keeps; [apply keeps_token_post_without_auth | apply steps_post_without_auth]
  | |- backs (async_get_without_auth _ _) =>
      apply backs_of_keeps; [apply keeps_token_get_without_auth | apply steps_get_without_auth]
  | |- backs (async_get_response_if_success _ _) =>
      apply backs_of_keeps; [apply keeps_token_response | apply steps_response]
  | |- backs _ => intros ? ? ?; assumption
  end.

Lemma run_call_backed op c w : token_backed w -> token_backed (run_call op c w).
Proof.
  revert c w.
  destruct op; cbn [run_call];
    match goal with
    | |- forall c w, _ -> token_backed (snd (?m c w)) => change (backs m)
    end;
    try (unfold getConnectionStatus, async_connection_status, is_login_timed_out,
           async_get_endpoints, async_get_endpoint, async_set_target_temperatures,
           async_disable, async_enable_schedule, async_enable_custom_mode,
           async_post, async_get, auth_gate, has_auth;
         repeat backs_step; fail).
  - intros c w Hb; rewrite getHomeId_eq; destruct (is_none (homeId w)); exact Hb.
  - intros c w Hb; rewrite getCurrentStatus_eval; destruct (is_none (homeId w)); exact Hb.
  - intros c w Hb; rewrite setTemperature_eval; exact Hb.
  - intros c w Hb; rewrite turnOff_eval; exact Hb.
  - intros c w Hb; rewrite enableSchedule_eval; exact Hb.
Qed.

(** ** One attempt of a request *)

(** The headers [__getHeaders] builds for a given [Api] state. *)
Definition headers_of (a : api_state) : list (string * pyval) :=
  if is_none (authToken a)
  then [("Content-Type", PJ (JStr "application/json"))]
  else [("Content-Type", PJ (JStr "application/json")); ("authToken", authToken a)].

Definition post_request (a : api_state) (ep : string) (p : json) : request :=
  mkRequest POST (url_of ep) (headers_of a) (Some (json_dumps p)).

Definition get_request (a : api_state) (ep : string) : request :=
  mkRequest GET (url_of ep) (headers_of a) None.

Definition with_request (w : world) (r : request) : world :=
  mkWorld (api w) (homeId w) (app (log w) [r]).

Lemma post_attempt_eq ep p k c w :
  post_attempt ep p k c w =
  match handle (net c (length (log w)) (post_request (api w) ep p)) c
               (with_request w (post_request (api w) ep p)) with
  | (Raise e, w') => if caught e then k (JStr (json_dumps p)) c w' else (Raise e, w')
  | r => r
  end.
Proof.
  unfold post_attempt, post_request, headers_of, with_request, getHeaders, has_auth,
    try_except, bind, get_api, ret, send.
  cbv beta iota zeta.
  destruct (is_none (authToken (api w))); reflexivity.
Qed.

Lemma get_attempt_eq ep h c w :
  get_attempt ep h c w =
  match handle (net c (length (log w)) (get_request (api w) ep)) c
               (with_request w (get_request (api w) ep)) with
  | (Raise e, w') => if caught e then h c w' else (Raise e, w')
  | r => r
  end.
Proof.
  unfold get_attempt, get_request, headers_of, with_request, getHeaders, has_auth,
    try_except, bind, get_api, ret, send.
  cbv beta iota zeta.
  destruct (is_none (authToken (api w))); reflexivity.
Qed.

(** [handle] sends nothing and changes at most the timestamp. *)
Lemma handle_world o c w :
  homeId (snd (handle o c w)) = homeId w /\ log (snd (handle o c w)) = log w /\
  username (api (snd (handle o c w))) = username (api w) /\
  password (api (snd (handle o c w))) = password (api w) /\
  authToken (api (snd (handle o c w))) = authToken (api w).
Proof.
  destruct o as [|st b]; [repeat split|].
  unfold handle, async_get_response_if_success.
  destruct (negb (st =? 200)); [repeat split|].
  destruct b as [j|]; [| repeat split].
  unfold bind, lift, ret, throw, clock, set_lastSuccessfulCall, get_api, put_api.
  cbv beta iota.
  destruct (py_contains "ok" (PJ j)) as [[|]|e]; cbv beta iota; try (repeat split; fail).
  destruct (py_getitem (PJ j) "ok") as [v|e]; cbv beta iota; [|repeat split].
  destruct (py_eq_int v 1); repeat split.
Qed.

(** A response that raises nothing: a rejected status, or a 200 whose body
    decodes to an object. *)
Definition clean_response (s : Z) (body : option json) : Prop :=
  s <> 200 \/ exists fs, body = Some (JObj fs).

Definition accepted_data (s : Z) (body : option json) : pyval :=
  if success_predicate s body
  then match body with Some j => PJ j | None => PyNone end
  else PyNone.

Definition stamp_if (b : bool) (t : Z) (a : api_state) : api_state :=
  if b then mkApi (username a) (password a) (authToken a) (Some t) else a.

Lemma handle_clean c w s body :
  clean_response s body ->
  handle (Response s body) c w =
  (Ok (accepted_data s body),
   mkWorld (stamp_if (success_predicate s body) (now c) (api w)) (homeId w) (log w)).
Proof.
  intros Hc; destruct w as [[u pw t l] h lg].
  unfold handle, async_get_response_if_success, accepted_data, success_predicate, stamp_if.
  destruct (Z.eqb_spec s 200) as [->|Hs]; cbn [negb andb].
  2:{ reflexivity. }
  destruct Hc as [Hc|(fs & ->)]; [congruence|].
  unfold bind, lift, ret, clock, set_lastSuccessfulCall, get_api, put_api, py_contains,
    py_getitem.
  cbv beta iota zeta.
  destruct (assoc "ok" fs) as [v|]; cbv beta iota; [|reflexivity].
  destruct (py_eq_int (PJ v) 1); reflexivity.
Qed.

Lemma post_without_auth_clean ep p b c w s body :
  net c (length (log w)) (post_request (api w) ep p) = Response s body ->
  clean_response s body ->
  async_post_without_auth ep p b c w =
  (Ok (accepted_data s body),
   mkWorld (stamp_if (success_predicate s body) (now c) (api w)) (homeId w)
     (app (log w) [post_request (api w) ep p])).
Proof.
  intros Hn Hc; unfold async_post_without_auth.
  rewrite post_attempt_eq, Hn, (handle_clean _ _ _ _ Hc); reflexivity.
Qed.

Lemma get_without_auth_clean ep b c w s body :
  net c (length (log w)) (get_request (api w) ep) = Response s body ->
  clean_response s body ->
  async_get_without_auth ep b c w =
  (Ok (accepted_data s body),
   mkWorld (stamp_if (success_predicate s body) (now c) (api w)) (homeId w)
     (app (log w) [get_request (api w) ep])).
Proof.
  intros Hn Hc; unfold async_get_without_auth.
  rewrite get_attempt_eq, Hn, (handle_clean _ _ _ _ Hc); reflexivity.
Qed.

(** The outcomes the [except] clause turns into a retry: a transport
    error, or a 200 whose body does not decode. *)
Definition caught_failure (o : outcome) : Prop :=
  o = TransportError \/ o = Response 200 None.

Lemma handle_caught o c w :
  caught_failure o -> exists e, handle o c w = (Raise e, w) /\ caught e = true.
Proof. intros [-> | ->]; eexists; split; reflexivity. Qed.

Definition posts_to (ep : string) (r : request) : Prop :=
  r_method r = POST /\ r_url r = url_of ep.

Lemma post_attempt_log ep p k n c w :
  (forall q c' w', exists l, log (snd (k q c' w')) = app (log w') l /\
                   (length l <= n)%nat /\ Forall (posts_to ep) l) ->
  exists l, log (snd (post_attempt ep p k c w)) =
            app (log w) (post_request (api w) ep p :: l) /\
            (length l <= n)%nat /\ Forall (posts_to ep) l.
Proof.
  intros Hk; rewrite post_attempt_eq.
  set (r := post_request (api w) ep p).
  destruct (handle_world (net c (length (log w)) r) c (with_request w r)) as (_ & Hl & _).
  destruct (handle (net c (length (log w)) r) c (with_request w r)) as [[d|e] w'] eqn:E;
    cbn in Hl |- *.
  - exists []; rewrite Hl; split; [reflexivity | split; [cbn; lia | constructor]].
  - destruct (caught e); cbn.
    + destruct (Hk (JStr (json_dumps p)) c w') as (l & Hl' & Hn & Hf).
      exists l; rewrite Hl', Hl, <- app_assoc; split; [reflexivity | split; assumption].
    + exists []; rewrite Hl; split; [reflexivity | split; [cbn; lia | constructor]].
Qed.

(** ** Sessions: a sequence of calls, each with its own context *)

Fixpoint run_session (ops : list (api_call * ctx)) (w : world) : world :=
  match ops with
  | [] => w
  | (op, c) :: rest => run_session rest (run_call op c w)
  end.

Lemma run_session_step ops w :
  let w' := run_session ops w in
  username (api w') = username (api w) /\ password (api w') = password (api w) /\
  homeId w' = homeId w /\ (exists l, log w' = app (log w) l) /\
  (lastSuccessfulCall (api w') = lastSuccessfulCall (api w) \/
   exists op c, In (op, c) ops /\ lastSuccessfulCall (api w') = Some (now c)).
Proof.
  revert w; induction ops as [|[op c] rest IH]; intros w; cbn.
  - repeat split; [exists []; rewrite app_nil_r; reflexivity | left; reflexivity].
  - destruct (run_call_step op c w) as (Hu & Hp & Hh & (l1 & Hl1) & Ht).
    destruct (IH (run_call op c w)) as (Hu' & Hp' & Hh' & (l2 & Hl2) & Ht').
    split; [congruence|]. split; [congruence|]. split; [congruence|]. split.
    + exists (app l1 l2); rewrite Hl2, Hl1, app_assoc; reflexivity.
    + destruct Ht' as [Ht' | (op' & c' & Hin & Ht')].
      * destruct Ht as [Ht | Ht]; [left; congruence|].
        right; exists op, c; split; [left; reflexivity | congruence].
      * right; exists op', c'; split; [right; exact Hin | exact Ht'].
Qed.

Lemma run_session_backed ops w :
  token_backed w -> token_backed (run_session ops w).
Proof.
  revert w; induction ops as [|[op c] rest IH]; intros w Hb; cbn; [exact Hb|].
  apply IH, run_call_backed, Hb.
Qed.

(** ** Requests made by the public methods *)

Definition login_request (a : api_state) : request :=
  post_request a "/api/users/login"
    (JObj [("email", JStr (username a)); ("password", JStr (password a))]).

(** The tail shared by the four mutators: post with a token held, and report
    whether data came back. *)
Lemma post_bool_clean ep p c w s body :
  is_none (authToken (api w)) = false ->
  net c (length (log w)) (post_request (api w) ep p) = Response s body ->
  clean_response s body ->
  (data <- async_post ep p true;; ret (negb (is_none data))) c w =
  (Ok (success_predicate s body),
   mkWorld (stamp_if (success_predicate s body) (now c) (api w)) (homeId w)
     (app (log w) [post_request (api w) ep p])).
Proof.
  intros Ht Hn Hc; unfold bind at 1; cbv beta.
  rewrite async_post_eq, auth_gate_eq, Ht; cbv beta iota.
  rewrite (post_without_auth_clean _ _ _ _ _ _ _ Hn Hc).
  unfold accepted_data; destruct (success_predicate s body) eqn:E; [|reflexivity].
  destruct Hc as [Hs | (fs & ->)]; [|reflexivity].
  unfold success_predicate in E; apply Z.eqb_neq in Hs; rewrite Hs in E; discriminate E.
Qed.

(** ** Claims *)

(** C1 (code_bug).  Exceptions do escape the public operations: on a freshly
    constructed manager, [getHomeId], [getCurrentStatus], [setTemperature],
    [turnOff] and [enableSchedule] all raise [TypeError] (a coroutine object
    is subscripted), whatever the network does; and [async_get_endpoints]
    raises [TypeError] once a token is held ([x in coroutine]). *)
Theorem C1_operations_raise_type_error :
  forall c u p x,
    let w := init_manager u p in
    getHomeId c w = (Raise TypeError, w) /\
    getCurrentStatus c w = (Raise TypeError, w) /\
    setTemperature x c w = (Raise TypeError, w) /\
    turnOff c w = (Raise TypeError, w) /\
    enableSchedule c w = (Raise TypeError, w) /\
    async_get_endpoints c tok_world = (Raise TypeError, tok_world).
Proof.
  intros c u p x w.
  rewrite getHomeId_eq, getCurrentStatus_eval, setTemperature_eval, turnOff_eval,
    enableSchedule_eval.
  repeat split; reflexivity.
Qed.

(** C2 (code_bug).  The rollback run never happens: for every device state,
    target and network, [setTemperature] issues no request at all (neither
    the temperature write, the mode change nor the compensating write) and
    raises [TypeError] instead of returning failure. *)
Theorem C2_setTemperature_sends_nothing :
  forall c w x,
    let '(r, w') := setTemperature x c w in
    r = Raise TypeError /\ log w' = log w.
Proof. intros c w x; rewrite setTemperature_eval; split; reflexivity. Qed.

(** C4 (code_bug).  [getHomeId] returns a cached id without any request, but
    on an empty cache it raises [TypeError] without fetching anything, and no
    manager operation ever stores an id: [__homeId] is the same after each of
    them. *)
Theorem C4_getHomeId_never_caches :
  forall c w x,
    getHomeId c w =
      (if is_none (homeId w) then (Raise TypeError, w) else (Ok (homeId w), w)) /\
    homeId (snd (getHomeId c w)) = homeId w /\
    homeId (snd (getCurrentStatus c w)) = homeId w /\
    homeId (snd (setTemperature x c w)) = homeId w /\
    homeId (snd (turnOff c w)) = homeId w /\
    homeId (snd (enableSchedule c w)) = homeId w /\
    homeId (snd (getConnectionStatus c w)) = homeId w.
Proof.
  intros c w x.
  rewrite getHomeId_eq, getCurrentStatus_eval, setTemperature_eval, turnOff_eval,
    enableSchedule_eval.
  split; [reflexivity|].
  split; [destruct (is_none (homeId w)); reflexivity|].
  split; [destruct (is_none (homeId w)); reflexivity|].
  do 3 (split; [reflexivity|]).
  apply keeps_connection_status.
Qed.

(** C5 (code_bug).  Even when the service reports [manual/custom/X],
    [setTemperature X] does not return success: it raises [TypeError] and
    leaves the state (in particular the request log) unchanged. *)
Theorem C5_setTemperature_no_success :
  forall c w x,
    fst (setTemperature x c w) = Raise TypeError /\ snd (setTemperature x c w) = w.
Proof. intros c w x; rewrite setTemperature_eval; split; reflexivity. Qed.

(** C9 (code_bug).  [turnOff] and [enableSchedule] raise [TypeError] in every
    state, without a request: neither the no-op success nor the mode call. *)
Theorem C9_mode_operations_raise :
  forall c w,
    turnOff c w = (Raise TypeError, w) /\ enableSchedule c w = (Raise TypeError, w).
Proof. intros c w; rewrite turnOff_eval, enableSchedule_eval; split; reflexivity. Qed.

(** C3 (code_bug).  The retry of an authenticated POST does not resend the
    same body: the first attempt sends [json.dumps(payload)], the retry sends
    [json.dumps] of that string.  An authenticated GET sends no request at
    all (its coroutine is returned unawaited). *)
Theorem C3_retry_body_reencoded :
  let payload := JObj [("endpoint", JStr "e"); ("mode", JStr "schedule")] in
  let c := mkCtx (always TransportError) 0 in
  let '(r, w') := async_post "/api/endpoints/setMode" payload true c tok_world in
  r = Ok PyNone /\
  map r_data (log w') =
    [Some (json_dumps payload); Some (json_dumps (JStr (json_dumps payload)))] /\
  json_dumps payload <> json_dumps (JStr (json_dumps payload)) /\
  async_get "/api/endpoints/getEndpoints" true c tok_world =
    (Ok (PCoro "__async_get_without_auth"), tok_world).
Proof.
  vm_compute.
  split; [reflexivity|]. split; [reflexivity|]. split; [discriminate|reflexivity].
Qed.


(** C6 (confirmed).  With a last successful call at [T] and
    [now - T <= 60 minutes], [connectionStatus] returns [True] and leaves the
    state untouched (no login, no request); otherwise, and when no call was
    ever recorded, it runs [__async_login] once and yields exactly its
    result and state. *)
Theorem C6_connection_status_freshness :
  forall c w,
    async_connection_status c w =
      match lastSuccessfulCall (api w) with
      | Some T =>
          if now c - T <=? 60 * 60 * 1000000 then (Ok true, w) else async_login c w
      | None => async_login c w
      end.
Proof.
  intros c w.
  unfold async_connection_status, is_login_timed_out, bind at 1 2 3, get_api, clock, ret at 1.
  cbv beta iota.
  assert (Hlogin : (ok <- async_login;; if negb ok then ret false else ret true) c w
                   = async_login c w).
  { unfold bind; destruct (async_login c w) as [[[|]|e] w']; reflexivity. }
  destruct (lastSuccessfulCall (api w)) as [T|]; [|exact Hlogin].
  unfold LOGIN_TIMEOUT_DELTA.
  destruct (now c - T <=? 60 * 60 * 1000000) eqn:E;
    destruct (now c - T >? 60 * 60 * 1000000) eqn:F;
    try reflexivity; try exact Hlogin;
    rewrite Z.gtb_ltb in F;
    [apply Z.leb_le in E; apply Z.ltb_lt in F | apply Z.leb_gt in E; apply Z.ltb_ge in F];
    lia.
Qed.

(** C7 (confirmed).  [__async_get_response_if_success] returns non-[None]
    data exactly when the success predicate holds, and it sets
    [__lastSuccessfulCall] to the current time exactly then; otherwise the
    timestamp is left as it was (whether [None] is returned or an exception
    is raised). *)
Ltac rejected :=
  split;
  [ split;
    [ let d := fresh "d" in let Hd := fresh "Hd" in let Hn := fresh "Hn" in
      intros (d & Hd & Hn); inversion Hd; subst; cbn in Hn; discriminate Hn
    | discriminate ]
  | reflexivity ].

Theorem C7_success_predicate :
  forall c w status body,
    let '(r, w') := async_get_response_if_success status body c w in
    ((exists d, r = Ok d /\ is_none d = false) <->
       success_predicate status body = true) /\
    lastSuccessfulCall (api w') =
      (if success_predicate status body then Some (now c)
       else lastSuccessfulCall (api w)).
Proof.
  intros c w status body.
  unfold async_get_response_if_success, success_predicate.
  destruct (status =? 200) eqn:Es; cbn -[py_eq_int]; [| rejected].
  destruct body as [j|]; cbn -[py_eq_int]; [| rejected].
  destruct j as [| b | z | s | l | fs]; cbn -[py_eq_int]; try rejected.
  - (* a decoded string: [s["ok"]] raises if ["ok"] is a substring *)
    destruct (str_contains "ok" s); cbn -[py_eq_int]; rejected.
  - (* a decoded list: [x in l] may hold, then [l["ok"]] raises *)
    destruct (existsb _ l); cbn -[py_eq_int]; rejected.
  - destruct (assoc "ok" fs) as [v|] eqn:Ev; cbn -[py_eq_int]; [| rejected].
    destruct (py_eq_int (PJ v) 1) eqn:Eq; cbn -[py_eq_int]; [| rejected].
    split; [split; [intros _; reflexivity | intros _; exists (PJ (JObj fs)); split; reflexivity]
           | reflexivity].
Qed.


(** C10 (confirmed).  A login answered with status 200 and [ok == 1] but no
    [authToken] makes [__async_login] return [False] with no token held, yet
    records the response as the last successful call; so [connectionStatus]
    within the next 60 minutes answers [True] without any login or request. *)
Theorem C10_login_without_token :
  forall c w fs,
    (forall r, net c (length (log w)) r = Response 200 (Some (JObj fs))) ->
    match assoc "ok" fs with Some v => py_eq_int (PJ v) 1 | None => false end = true ->
    assoc "authToken" fs = None ->
    let '(r, w') := async_login c w in
    r = Ok false /\ is_none (authToken (api w')) = true /\
    lastSuccessfulCall (api w') = Some (now c) /\
    forall c', now c' - now c <= 60 * 60 * 1000000 ->
      async_connection_status c' w' = (Ok true, w').
Proof.
  intros c w fs Hnet Hok Htok.
  assert (Hrun : exists w', async_login c w = (Ok false, w') /\
            authToken (api w') = PyNone /\ lastSuccessfulCall (api w') = Some (now c)).
  { eexists; split.
    unfold async_login, async_post_without_auth, post_attempt, try_except, send, handle,
      bind, get_api, getHeaders, has_auth, ret.
    cbn -[py_eq_int async_get_response_if_success].
    rewrite Hnet.
    unfold async_get_response_if_success, bind, lift, ret, clock, set_lastSuccessfulCall,
      get_api, put_api.
    cbn -[py_eq_int].
    destruct (assoc "ok" fs) as [v|]; [| discriminate Hok].
    rewrite Hok; cbn -[py_eq_int].
    rewrite Htok; cbn.
    reflexivity.
    split; reflexivity. }
  destruct Hrun as (w' & Hrun & Htk & Hlast).
  rewrite Hrun.
  split; [reflexivity|]. split; [rewrite Htk; reflexivity|]. split; [exact Hlast|].
  intros c' Hle.
  apply (connection_status_fresh c' w' (now c)); [exact Hlast | exact Hle].
Qed.

(** Witness for C10: a service that accepts the login with [{"ok": 1}]. *)
Lemma C10_login_without_token_witness :
  let c := mkCtx (always (Response 200 (Some (JObj [("ok", JInt 1)])))) 0 in
  let w := init_manager "u" "p" in
  (forall r, net c (length (log w)) r = Response 200 (Some (JObj [("ok", JInt 1)]))) /\
  let '(r, w') := async_login c w in
  r = Ok false /\ is_none (authToken (api w')) = true /\
  lastSuccessfulCall (api w') = Some (now c) /\
  forall c', now c' - now c <= 60 * 60 * 1000000 ->
    async_connection_status c' w' = (Ok true, w').
Proof.
  split; [intro r; reflexivity|].
  exact (C10_login_without_token
           (mkCtx (always (Response 200 (Some (JObj [("ok", JInt 1)])))) 0)
           (init_manager "u" "p") [("ok", JInt 1)]
           (fun _ => eq_refl) eq_refl eq_refl).
Defined.


(** C8 (corrected), counterexample.  The token ["T"] was last confirmed at
    time 0 and it is now two hours later, so the session is stale; an
    authenticated POST still goes out directly, with no login request
    before it. *)
Lemma C8_stale_token_used :
  let c := mkCtx (always (Response 200 (Some (JObj [("ok", JInt 1)]))))
             (2 * LOGIN_TIMEOUT_DELTA) in
  let payload := JObj [("endpoint", JStr "e"); ("mode", JStr "schedule")] in
  fst (is_login_timed_out c tok_world) = Ok true /\
  map r_url (log (snd (async_post "/api/endpoints/setMode" payload true c tok_world))) =
    [url_of "/api/endpoints/setMode"].
Proof. vm_compute; split; reflexivity. Qed.

(** C8 (corrected), amended.  An authenticated POST or GET attempts a login
    first exactly when no token is held: when that login fails the call
    returns [None] and sends nothing else, when it succeeds the POST goes on.
    When a token is held there is no login at all, whatever the time since
    the last successful call (the POST runs [__async_post_without_auth]
    directly; the GET returns its unawaited coroutine). *)
Theorem C8_login_gate_on_missing_token :
  forall c w ep p b,
    (is_none (authToken (api w)) = false ->
       async_post ep p b c w = async_post_without_auth ep p b c w /\
       async_get ep b c w = (Ok (PCoro "__async_get_without_auth"), w)) /\
    (is_none (authToken (api w)) = true ->
       forall w',
         (async_login c w = (Ok false, w') ->
            async_post ep p b c w = (Ok PyNone, w') /\
            async_get ep b c w = (Ok PyNone, w')) /\
         (async_login c w = (Ok true, w') ->
            async_post ep p b c w = async_post_without_auth ep p b c w')).
Proof.
  intros c w ep p b.
  rewrite async_post_eq, async_get_eq, auth_gate_eq.
  split.
  - intros H; rewrite H; split; reflexivity.
  - intros H w'; rewrite H; split; intros HL; rewrite HL; [split|]; reflexivity.
Qed.

(** Witness for C8: a held token, and no token with a rejected login. *)
Lemma C8_login_gate_on_missing_token_witness :
  let c := mkCtx (always (Response 401 None)) 0 in
  let w := init_manager "u" "p" in
  let ep := "/api/endpoints/setMode" in
  let payload := JObj [("endpoint", JStr "e"); ("mode", JStr "schedule")] in
  is_none (authToken (api tok_world)) = false /\
  async_post ep payload true c tok_world = async_post_without_auth ep payload true c tok_world /\
  is_none (authToken (api w)) = true /\
  async_login c w = (Ok false, snd (async_login c w)) /\
  async_post ep payload true c w = (Ok PyNone, snd (async_login c w)).
Proof.
  cbv zeta.
  pose proof (C8_login_gate_on_missing_token
                (mkCtx (always (Response 401 None)) 0) tok_world "/api/endpoints/setMode"
                (JObj [("endpoint", JStr "e"); ("mode", JStr "schedule")]) true) as [H1 _].
  pose proof (C8_login_gate_on_missing_token
                (mkCtx (always (Response 401 None)) 0) (init_manager "u" "p")
                "/api/endpoints/setMode"
                (JObj [("endpoint", JStr "e"); ("mode", JStr "schedule")]) true) as [_ H2].
  assert (HL : async_login (mkCtx (always (Response 401 None)) 0) (init_manager "u" "p")
               = (Ok false, snd (async_login (mkCtx (always (Response 401 None)) 0)
                                              (init_manager "u" "p"))))
    by (vm_compute; reflexivity).
  split; [reflexivity|].
  split; [exact (proj1 (H1 eq_refl))|].
  split; [reflexivity|].
  split; [exact HL|].
  exact (proj1 (proj1 (H2 eq_refl _) HL)).
Defined.

(** ** Further properties of the code *)

(** From a fresh [CosaManager(username, password)], no sequence of calls
    changes the stored credentials, and [__homeId] stays [None]. *)
Theorem session_keeps_credentials ops u p :
  let w := run_session ops (init_manager u p) in
  username (api w) = u /\ password (api w) = p /\ homeId w = PyNone.
Proof.
  destruct (run_session_step ops (init_manager u p)) as (Hu & Hp & Hh & _).
  cbn in *; repeat split; assumption.
Qed.

(** Over any sequence of calls the request log only grows, and
    [lastSuccessfulCall] is either untouched or the clock reading of one of
    the calls made. *)
Theorem session_log_and_timestamp ops w :
  let w' := run_session ops w in
  (exists l, log w' = app (log w) l) /\
  (lastSuccessfulCall (api w') = lastSuccessfulCall (api w) \/
   exists op c, In (op, c) ops /\ lastSuccessfulCall (api w') = Some (now c)).
Proof.
  destruct (run_session_step ops w) as (_ & _ & _ & Hl & Ht); split; assumption.
Qed.

(** From a fresh manager, whenever a token is held, a successful call has
    been recorded: the login timeout check can never see a token with no
    timestamp. *)
Theorem session_token_backed ops u p :
  token_backed (run_session ops (init_manager u p)).
Proof.
  apply run_session_backed; intros H; discriminate H.
Qed.

(** Whenever [__async_post_without_auth] or [__async_get_without_auth]
    returns data other than [None], [__lastSuccessfulCall] is the current
    time. *)
Theorem without_auth_data_stamps ep p b c w :
  match async_post_without_auth ep p b c w with
  | (Ok d, w') => is_none d = false -> lastSuccessfulCall (api w') = Some (now c)
  | (Raise _, _) => True
  end /\
  match async_get_without_auth ep b c w with
  | (Ok d, w') => is_none d = false -> lastSuccessfulCall (api w') = Some (now c)
  | (Raise _, _) => True
  end.
Proof.
  split; [apply stamped_post_without_auth | apply stamped_get_without_auth].
Qed.

(** [__async_post_without_auth] sends its request first, then at most one
    more (none when [allowRetry] is false); every request is a POST to the
    endpoint. *)
Theorem post_without_auth_request_count ep p b c w :
  exists l, log (snd (async_post_without_auth ep p b c w)) =
            app (log w) (post_request (api w) ep p :: l) /\
            (length l <= (if b then 1 else 0))%nat /\ Forall (posts_to ep) l.
Proof.
  unfold async_post_without_auth; apply post_attempt_log.
  intros q c' w'; destruct b.
  - destruct (post_attempt_log ep q (fun _ => ret PyNone) 0 c' w') as (l & Hl & Hn & Hf).
    + intros q' c'' w''; exists []; split; [symmetry; apply app_nil_r | split; [cbn; lia | constructor]].
    + exists (post_request (api w') ep q :: l); split; [exact Hl|].
      split; [cbn; lia|]. constructor; [split; reflexivity | exact Hf].
  - exists []; split; [symmetry; apply app_nil_r | split; [cbn; lia | constructor]].
Qed.

(** A response that raises nothing (a status other than 200, or a body
    decoding to an object) is not retried: one request is sent, the data is
    returned exactly when the success predicate holds, and only then is the
    timestamp set. *)
Theorem post_without_auth_clean_response ep p b c w s body :
  net c (length (log w)) (post_request (api w) ep p) = Response s body ->
  clean_response s body ->
  async_post_without_auth ep p b c w =
  (Ok (accepted_data s body),
   mkWorld (stamp_if (success_predicate s body) (now c) (api w)) (homeId w)
     (app (log w) [post_request (api w) ep p])).
Proof.
  intros Hn Hc; unfold async_post_without_auth.
  rewrite post_attempt_eq, Hn, (handle_clean _ _ _ _ Hc); reflexivity.
Qed.

Lemma post_without_auth_clean_response_witness :
  let body := Some (JObj [("ok", JInt 1)]) in
  let c := mkCtx (always (Response 200 body)) 7 in
  let p := JObj [("endpoint", JStr "e")] in
  net c (length (log tok_world)) (post_request (api tok_world) "/x" p) = Response 200 body /\
  clean_response 200 body /\
  async_post_without_auth "/x" p true c tok_world =
  (Ok (accepted_data 200 body),
   mkWorld (stamp_if (success_predicate 200 body) (now c) (api tok_world)) (homeId tok_world)
     (app (log tok_world) [post_request (api tok_world) "/x" p])).
Proof.
  cbv zeta.
  assert (Hc : clean_response 200 (Some (JObj [("ok", JInt 1)])))
    by (right; eexists; reflexivity).
  split; [reflexivity | split; [exact Hc|]].
  apply post_without_auth_clean_response; [reflexivity | exact Hc].
Defined.

(** Two caught failures in a row (transport error, or a 200 whose body does
    not decode) make [__async_post_without_auth] return [None] after exactly
    two requests, the second carrying the JSON encoding of the first body,
    with the [Api] state unchanged. *)
Theorem post_without_auth_two_failures ep p c w :
  caught_failure (net c (length (log w)) (post_request (api w) ep p)) ->
  caught_failure (net c (S (length (log w))) (post_request (api w) ep (JStr (json_dumps p)))) ->
  async_post_without_auth ep p true c w =
  (Ok PyNone,
   mkWorld (api w) (homeId w)
     (app (log w) [post_request (api w) ep p; post_request (api w) ep (JStr (json_dumps p))])).
Proof.
  intros H1 H2; unfold async_post_without_auth.
  rewrite post_attempt_eq.
  destruct (handle_caught _ c (with_request w (post_request (api w) ep p)) H1) as (e1 & He1 & Hc1).
  rewrite He1, Hc1, post_attempt_eq.
  replace (api (with_request w (post_request (api w) ep p))) with (api w) by reflexivity.
  replace (length (log (with_request w (post_request (api w) ep p)))) with (S (length (log w)))
    by (unfold with_request; cbn [log]; rewrite length_app, Nat.add_1_r; reflexivity).
  destruct (handle_caught _ c (with_request (with_request w (post_request (api w) ep p)) (post_request (api w) ep (JStr (json_dumps p)))) H2)
    as (e2 & He2 & Hc2).
  rewrite He2, Hc2; unfold with_request; cbn.
  rewrite <- app_assoc; reflexivity.
Qed.

Lemma post_without_auth_two_failures_witness :
  let c := mkCtx (always TransportError) 7 in
  let p := JObj [("endpoint", JStr "e")] in
  caught_failure (net c (length (log tok_world)) (post_request (api tok_world) "/x" p)) /\
  caught_failure (net c (S (length (log tok_world)))
                    (post_request (api tok_world) "/x" (JStr (json_dumps p)))) /\
  async_post_without_auth "/x" p true c tok_world =
  (Ok PyNone,
   mkWorld (api tok_world) (homeId tok_world)
     (app (log tok_world) [post_request (api tok_world) "/x" p;
                           post_request (api tok_world) "/x" (JStr (json_dumps p))])).
Proof.
  cbv zeta.
  split; [left; reflexivity | split; [left; reflexivity|]].
  apply post_without_auth_two_failures; left; reflexivity.
Defined.



(** A login the server answers without raising, but not with success,
    clears any token held and returns [False] after a single request; the
    timestamp is left alone. *)
Theorem login_rejected_clears_token c w s body :
  net c (length (log w)) (login_request (api w)) = Response s body ->
  clean_response s body ->
  success_predicate s body = false ->
  async_login c w =
  (Ok false,
   mkWorld (mkApi (username (api w)) (password (api w)) PyNone (lastSuccessfulCall (api w)))
     (homeId w) (app (log w) [login_request (api w)])).
Proof.
  intros Hn Hc Hs.
  unfold async_login, bind at 1, get_api; cbv beta iota zeta.
  unfold bind at 1; cbv beta.
  rewrite (post_without_auth_clean _ _ true c w s body Hn Hc).
  unfold accepted_data, stamp_if; rewrite Hs; reflexivity.
Qed.

Lemma login_rejected_clears_token_witness :
  let c := mkCtx (always (Response 401 None)) 7 in
  net c (length (log tok_world)) (login_request (api tok_world)) = Response 401 None /\
  clean_response 401 None /\ success_predicate 401 None = false /\
  async_login c tok_world =
  (Ok false,
   mkWorld (mkApi (username (api tok_world)) (password (api tok_world)) PyNone
              (lastSuccessfulCall (api tok_world)))
     (homeId tok_world) (app (log tok_world) [login_request (api tok_world)])).
Proof.
  cbv zeta.
  assert (Hc : clean_response 401 None) by (left; lia).
  split; [reflexivity | split; [exact Hc | split; [reflexivity|]]].
  apply (login_rejected_clears_token _ _ 401 None); [reflexivity | exact Hc | reflexivity].
Defined.

(** A successful login stores whatever [authToken] field the body has (a
    JSON [null] leaves no token held), sets the timestamp to now, and
    returns [True] exactly when the field is present; one request is
    sent. *)
Theorem login_accepted_stores_token c w fs :
  net c (length (log w)) (login_request (api w)) = Response 200 (Some (JObj fs)) ->
  success_predicate 200 (Some (JObj fs)) = true ->
  async_login c w =
  (Ok (match assoc "authToken" fs with Some _ => true | None => false end),
   mkWorld (mkApi (username (api w)) (password (api w))
              (match assoc "authToken" fs with Some t => PJ t | None => PyNone end)
              (Some (now c)))
     (homeId w) (app (log w) [login_request (api w)])).
Proof.
  intros Hn Hs.
  assert (Hc : clean_response 200 (Some (JObj fs))) by (right; exists fs; reflexivity).
  unfold async_login, bind at 1, get_api; cbv beta iota zeta.
  unfold bind at 1; cbv beta.
  rewrite (post_without_auth_clean _ _ true c w _ _ Hn Hc).
  unfold accepted_data, stamp_if; rewrite Hs.
  destruct (assoc "authToken" fs) eqn:E; cbn; rewrite ?E; reflexivity.
Qed.

Lemma login_accepted_stores_token_witness :
  let fs := [("ok", JInt 1); ("authToken", JStr "T")] in
  let c := mkCtx (always (Response 200 (Some (JObj fs)))) 7 in
  let w := init_manager "u" "p" in
  net c (length (log w)) (login_request (api w)) = Response 200 (Some (JObj fs)) /\
  success_predicate 200 (Some (JObj fs)) = true /\
  async_login c w =
  (Ok (match assoc "authToken" fs with Some _ => true | None => false end),
   mkWorld (mkApi (username (api w)) (password (api w))
              (match assoc "authToken" fs with Some t => PJ t | None => PyNone end)
              (Some (now c)))
     (homeId w) (app (log w) [login_request (api w)])).
Proof.
  cbv zeta.
  split; [reflexivity | split; [reflexivity|]].
  apply login_accepted_stores_token; reflexivity.
Defined.

(** [async_get_endpoints] never returns endpoint data: [__async_get] hands
    back an unawaited coroutine, so with a token held it raises [TypeError]
    before any request, and otherwise it returns [None] or raises. *)
Theorem get_endpoints_no_data c w :
  (forall v, fst (async_get_endpoints c w) = Ok v -> v = PyNone) /\
  (is_none (authToken (api w)) = false -> async_get_endpoints c w = (Raise TypeError, w)).
Proof.
  unfold async_get_endpoints, bind; cbv beta.
  rewrite !async_get_eq, !auth_gate_eq.
  destruct (is_none (authToken (api w))) eqn:Ht.
  - split; [|discriminate].
    destruct (async_login c w) as [[[|]|e] w']; cbn; intros v Hv; try discriminate Hv.
    injection Hv; intros <-; reflexivity.
  - split; [cbn; intros v Hv; discriminate Hv | reflexivity].
Qed.

(** With a token held and a response that raises nothing,
    [async_get_endpoint] sends one request and returns the [endpoint] field
    of a successful body, [None] otherwise. *)
Theorem get_endpoint_clean eid c w s body :
  is_none (authToken (api w)) = false ->
  net c (length (log w))
    (post_request (api w) "/api/endpoints/getEndpoint" (JObj [("endpoint", JStr eid)])) =
    Response s body ->
  clean_response s body ->
  async_get_endpoint eid c w =
  (Ok (if success_predicate s body
       then match body with
            | Some (JObj fs) => match assoc "endpoint" fs with Some e => PJ e | None => PyNone end
            | _ => PyNone
            end
       else PyNone),
   mkWorld (stamp_if (success_predicate s body) (now c) (api w)) (homeId w)
     (app (log w)
        [post_request (api w) "/api/endpoints/getEndpoint" (JObj [("endpoint", JStr eid)])])).
Proof.
  intros Ht Hn Hc.
  unfold async_get_endpoint; cbv zeta; unfold bind at 1; cbv beta.
  rewrite async_post_eq, auth_gate_eq, Ht; cbv beta iota.
  rewrite (post_without_auth_clean _ _ _ _ _ _ _ Hn Hc).
  unfold accepted_data; destruct (success_predicate s body) eqn:E; [|reflexivity].
  destruct Hc as [Hs | (fs & ->)].
  - unfold success_predicate in E; apply Z.eqb_neq in Hs; rewrite Hs in E; discriminate E.
  - destruct (assoc "endpoint" fs) eqn:Ea; cbn; rewrite ?Ea; reflexivity.
Qed.

Lemma get_endpoint_clean_witness :
  let body := Some (JObj [("ok", JInt 1); ("endpoint", JObj [("id", JStr "e")])]) in
  let c := mkCtx (always (Response 200 body)) 7 in
  let req := post_request (api tok_world) "/api/endpoints/getEndpoint"
               (JObj [("endpoint", JStr "e")]) in
  is_none (authToken (api tok_world)) = false /\
  net c (length (log tok_world)) req = Response 200 body /\
  clean_response 200 body /\
  async_get_endpoint "e" c tok_world =
  (Ok (if success_predicate 200 body
       then match body with
            | Some (JObj fs) => match assoc "endpoint" fs with Some e => PJ e | None => PyNone end
            | _ => PyNone
            end
       else PyNone),
   mkWorld (stamp_if (success_predicate 200 body) (now c) (api tok_world)) (homeId tok_world)
     (app (log tok_world) [req])).
Proof.
  cbv zeta.
  assert (Hc : clean_response 200
                 (Some (JObj [("ok", JInt 1); ("endpoint", JObj [("id", JStr "e")])])))
    by (right; eexists; reflexivity).
  split; [reflexivity | split; [reflexivity | split; [exact Hc|]]].
  apply get_endpoint_clean; [reflexivity | reflexivity | exact Hc].
Defined.

(** With a token held and a response that raises nothing, each of the four
    mutators sends exactly one request and returns the success predicate of
    the response. *)
Theorem mutators_report_success eid h a sl cu c w s body :
  is_none (authToken (api w)) = false ->
  (forall r, net c (length (log w)) r = Response s body) ->
  clean_response s body ->
  (fst (async_set_target_temperatures eid h a sl cu c w) = Ok (success_predicate s body) /\
   length (log (snd (async_set_target_temperatures eid h a sl cu c w))) = S (length (log w))) /\
  (fst (async_disable eid c w) = Ok (success_predicate s body) /\
   length (log (snd (async_disable eid c w))) = S (length (log w))) /\
  (fst (async_enable_schedule eid c w) = Ok (success_predicate s body) /\
   length (log (snd (async_enable_schedule eid c w))) = S (length (log w))) /\
  (fst (async_enable_custom_mode eid c w) = Ok (success_predicate s body) /\
   length (log (snd (async_enable_custom_mode eid c w))) = S (length (log w))).
Proof.
  intros Ht Hn Hc.
  unfold async_set_target_temperatures, async_disable, async_enable_schedule,
    async_enable_custom_mode; cbv zeta.
  repeat split;
    (erewrite post_bool_clean; [| exact Ht | apply Hn | exact Hc]);
    cbn [fst snd log]; rewrite ?length_app, ?Nat.add_1_r; reflexivity.
Qed.

Lemma mutators_report_success_witness :
  let body := Some (JObj [("ok", JInt 1)]) in
  let c := mkCtx (always (Response 200 body)) 7 in
  let w := tok_world in
  is_none (authToken (api w)) = false /\
  (forall r, net c (length (log w)) r = Response 200 body) /\
  clean_response 200 body /\
  ((fst (async_set_target_temperatures "e" 20 16 18 21 c w) = Ok (success_predicate 200 body) /\
    length (log (snd (async_set_target_temperatures "e" 20 16 18 21 c w))) = S (length (log w))) /\
   (fst (async_disable "e" c w) = Ok (success_predicate 200 body) /\
    length (log (snd (async_disable "e" c w))) = S (length (log w))) /\
   (fst (async_enable_schedule "e" c w) = Ok (success_predicate 200 body) /\
    length (log (snd (async_enable_schedule "e" c w))) = S (length (log w))) /\
   (fst (async_enable_custom_mode "e" c w) = Ok (success_predicate 200 body) /\
    length (log (snd (async_enable_custom_mode "e" c w))) = S (length (log w)))).
Proof.
  cbv zeta.
  assert (Hc : clean_response 200 (Some (JObj [("ok", JInt 1)])))
    by (right; eexists; reflexivity).
  split; [reflexivity | split; [intros r; reflexivity | split; [exact Hc|]]].
  apply mutators_report_success; [reflexivity | intros r; reflexivity | exact Hc].
Defined.


End Cosa.
